(** * Digital gates of [qcodes_measurements.device.digital]

    A shallow embedding of [DigitalMode], [DigitalGate], [DigitalGateWrapper]
    and [DigitalDevice], and the properties of the io_mode / lock /
    hysteresis logic.

    Conventions of the embedding.
    - Voltages are rationals ([Q]) with exact arithmetic; Python computes on
      binary64 floats.  Stored levels are copied, never recomputed, so
      "driven to exactly v_high" is Leibniz equality of the stored number.
    - The voltage source is a cell: [source.voltage(v)] stores [v] and
      [source.voltage()] returns the stored number.
    - Every method is a computation in a small monad that threads the object
      it mutates, records the primitive effects it performs in program order,
      and may raise.  A raise keeps the state reached so far: Python has no
      rollback. *)

From Stdlib Require Import QArith Qabs ZArith List Bool String Lqa.
Import ListNotations.

Set Implicit Arguments.
Local Open Scope Q_scope.

(** ** Python values that reach the gate *)

(** [class DigitalMode(str, enum.Enum)]: the six members. *)
Inductive DigitalMode : Set :=
  | IN | OUT | PROBE_OUT | HIGH | LOW | GND.

Definition DigitalMode_eqb (a b : DigitalMode) : bool :=
  match a, b with
  | IN, IN | OUT, OUT | PROBE_OUT, PROBE_OUT
  | HIGH, HIGH | LOW, LOW | GND, GND => true
  | _, _ => false
  end.

(** [DigitalMode.OUTPUT_MODES] and [DigitalMode.INPUT_MODES]. *)
Definition OUTPUT_MODES : list DigitalMode := [OUT; PROBE_OUT; HIGH; LOW].
Definition INPUT_MODES : list DigitalMode := [IN; GND].

(** What a caller may pass where a mode is expected: a member of the
    enumeration (or, the enumeration being a [str] one, an object that
    compares equal to a member), or some other object, equal to no member. *)
Inductive modeval : Type :=
  | Member (m : DigitalMode)
  | Foreign (repr : string).

(** [val == DigitalMode.X] *)
Definition mode_is (val : modeval) (m : DigitalMode) : bool :=
  match val with
  | Member m' => DigitalMode_eqb m' m
  | Foreign _ => false
  end.

(** [val in modes] *)
Definition mode_in (val : modeval) (modes : list DigitalMode) : bool :=
  existsb (mode_is val) modes.

(** Values accepted by [MultiType(Bool(), Numbers())]. *)
Inductive pyval : Type :=
  | PyBool (b : bool)
  | PyInt (z : Z)
  | PyFloat (q : Q).

(** Python truthiness, as tested by [if value:]. *)
Definition truthy (v : pyval) : bool :=
  match v with
  | PyBool b => b
  | PyInt z => negb (Z.eqb z 0)
  | PyFloat q => negb (Qeq_bool q 0)
  end.

(** [x < y] on numbers. *)
Definition Qltb (x y : Q) : bool := negb (Qle_bool y x).

(** ** Exceptions and effects *)

Inductive exn : Set :=
  | InvalidArgument      (* a validator rejected the value *)
  | HardwareError.       (* a capability call of the channel failed *)

Inductive capability : Set :=
  | cap_open | cap_dac | cap_probe | cap_ground.

(** The primitive effects, in the order the program performs them. *)
Inductive event : Type :=
  | EvVoltageGet                   (* source.voltage() *)
  | EvVoltageSet (v : Q)           (* source.voltage(v) *)
  | EvLock (b : bool)              (* gate.lock = b *)
  | EvStoreVHigh (v : Q)           (* gate._v_high = v *)
  | EvStoreVLow (v : Q)            (* gate._v_low = v *)
  | EvCap (c : capability)         (* open() / dac() / probe() / ground() *)
  | EvStoreMode (val : modeval).   (* gate.io_mode = val *)

(** ** The monad: state, effect log, exceptions *)

Record outcome (S A : Type) : Type := Outcome {
  final : S;                 (* the object after the call *)
  effects : list event;      (* what the call did, oldest first *)
  result : exn + A           (* raised, or returned *)
}.

Definition M (S A : Type) : Type := S -> outcome S A.

Definition ret {S A} (a : A) : M S A :=
  fun s => Outcome s [] (inr a).

Definition raise {S A} (e : exn) : M S A :=
  fun s => Outcome s [] (inl e).

Definition bind {S A B} (m : M S A) (k : A -> M S B) : M S B :=
  fun s =>
    let o := m s in
    match result o with
    | inl e => Outcome (final o) (effects o) (inl e)
    | inr a =>
        let o' := k a (final o) in
        Outcome (final o') (effects o ++ effects o') (result o')
    end.

Definition emit {S} (e : event) : M S unit :=
  fun s => Outcome s [e] (inr tt).

Definition gets {S A} (f : S -> A) : M S A :=
  fun s => Outcome s [] (inr (f s)).

Definition modify {S} (f : S -> S) : M S unit :=
  fun s => Outcome (f s) [] (inr tt).

(** Run a computation on a component of the state. *)
Definition zoom {S T A} (get : T -> S) (set : S -> T -> T) (m : M S A) : M T A :=
  fun t =>
    let o := m (get t) in
    Outcome (set (final o) t) (effects o) (result o).

Declare Scope py_scope.
Delimit Scope py_scope with py.
Notation "x <- m ;; k" := (bind m (fun x => k))
  (at level 61, m at next level, right associativity) : py_scope.
Notation "m ;; k" := (bind m (fun _ => k))
  (at level 61, right associativity) : py_scope.
Local Open Scope py_scope.

Definition when {S} (b : bool) (m : M S unit) : M S unit :=
  if b then m else ret tt.

(** Modelled from the spec: the parameter framework is not part of this
    repository.  Setting a parameter validates the value against the
    parameter's [vals] and only then runs its [set_cmd]; a rejected value
    fails at call time with an error of the [InvalidArgument] kind. *)
Definition param_set {S V} (vals : V -> bool) (set_cmd : V -> M S unit)
    (value : V) : M S unit :=
  if vals value then set_cmd value else raise InvalidArgument.

(** ** The channel behind a gate *)

Section Channel.

(** State of the channel other than its voltage setpoint (relays, filter,
    link to the hardware). *)
Variable hw : Type.

(** [gate.source], the same object as the wrapper's [parent]. *)
Record Source : Type := mkSource {
  voltage : Q;
  relays : hw
}.

(** The capability methods [open], [dac], [probe], [ground] come from the
    wrapper's base class, which drives the channel: one implementation per
    kind of channel.  They act on the channel and either return ([true]) or
    fail ([false]). *)
Class Channel : Type :=
  capability_call : capability -> Source -> Source * bool.

Context {channel : Channel}.

(** ** DigitalGate *)

Record DigitalGate : Type := mkGate {
  source : Source;
  _v_high : Q;
  _v_low : Q;
  v_hist : Q;
  io_mode : modeval;
  lock : bool
}.

Definition with_source (s : Source) (g : DigitalGate) : DigitalGate :=
  mkGate s (_v_high g) (_v_low g) (v_hist g) (io_mode g) (lock g).
Definition with_v_high (v : Q) (g : DigitalGate) : DigitalGate :=
  mkGate (source g) v (_v_low g) (v_hist g) (io_mode g) (lock g).
Definition with_v_low (v : Q) (g : DigitalGate) : DigitalGate :=
  mkGate (source g) (_v_high g) v (v_hist g) (io_mode g) (lock g).
Definition with_io_mode (m : modeval) (g : DigitalGate) : DigitalGate :=
  mkGate (source g) (_v_high g) (_v_low g) (v_hist g) m (lock g).
Definition with_lock (b : bool) (g : DigitalGate) : DigitalGate :=
  mkGate (source g) (_v_high g) (_v_low g) (v_hist g) (io_mode g) b.
Definition with_voltage (v : Q) (g : DigitalGate) : DigitalGate :=
  with_source (mkSource v (relays (source g))) g.

(** [DigitalGate.__init__], after the checks on [source]. *)
Definition DigitalGate_init (src : Source) (v_high v_low hist : Q)
    (mode : modeval) : DigitalGate :=
  mkGate src v_high v_low hist mode false.

(** [self.source.voltage()] *)
Definition source_voltage_get : M DigitalGate Q :=
  emit EvVoltageGet ;; gets (fun g => voltage (source g)).

(** [self.source.voltage(v)] *)
Definition source_voltage_set (v : Q) : M DigitalGate unit :=
  emit (EvVoltageSet v) ;; modify (with_voltage v).

(** [self.lock = b] *)
Definition lock_set (b : bool) : M DigitalGate unit :=
  emit (EvLock b) ;; modify (with_lock b).

(** [DigitalGate.get_raw] *)
Definition get_raw : M DigitalGate Z :=
  v <- source_voltage_get ;;
  vh <- gets _v_high ;;
  vl <- gets _v_low ;;
  h <- gets v_hist ;;
  if Qltb (Qabs (v - vh)) h then ret 1%Z
  else if Qltb (Qabs (v - vl)) h then ret 0%Z
  else ret (-1)%Z.

(** [abs(voltage - level) < self.v_hist] as a proposition. *)
Definition within_hysteresis (g : DigitalGate) (level : Q) : Prop :=
  Qabs (voltage (source g) - level) < v_hist g.

(** The number [get_raw] returns, as a function of the gate. *)
Definition readback (g : DigitalGate) : Z :=
  let v := voltage (source g) in
  if Qltb (Qabs (v - _v_high g)) (v_hist g) then 1%Z
  else if Qltb (Qabs (v - _v_low g)) (v_hist g) then 0%Z
  else (-1)%Z.

(** [DigitalGate.set_raw] *)
Definition set_raw (value : pyval) : M DigitalGate unit :=
  locked <- gets lock ;;
  if locked then ret tt
  else if truthy value then
    vh <- gets _v_high ;; source_voltage_set vh
  else
    vl <- gets _v_low ;; source_voltage_set vl.

(** [vals=MultiType(Bool(), Numbers())]: every [pyval] is a bool or a
    number. *)
Definition gate_vals (value : pyval) : bool := true.

(** Calling the parameter: [self()] reads through [get_raw]; [self(value)]
    validates [value] and writes through [set_raw]. *)
Definition gate_get : M DigitalGate Z := get_raw.
Definition gate_set : pyval -> M DigitalGate unit := param_set gate_vals set_raw.

(** [self(self())] *)
Definition reapply : M DigitalGate unit :=
  x <- gate_get ;; gate_set (PyInt x).

(** The [v_high] property setter. *)
Definition v_high_setter (val : Q) : M DigitalGate unit :=
  emit (EvStoreVHigh val) ;; modify (with_v_high val) ;;
  saved <- gets lock ;;
  lock_set false ;;
  mode <- gets io_mode ;;
  when (mode_in mode OUTPUT_MODES) reapply ;;
  lock_set saved.

(** The [v_low] property setter. *)
Definition v_low_setter (val : Q) : M DigitalGate unit :=
  emit (EvStoreVLow val) ;; modify (with_v_low val) ;;
  saved <- gets lock ;;
  lock_set false ;;
  mode <- gets io_mode ;;
  when (mode_in mode OUTPUT_MODES) reapply ;;
  lock_set saved.

(** ** DigitalGateWrapper *)

(** The wrapper owns the gate; [voltage_vals] is [self.parent.voltage.vals],
    the validator of the channel's voltage, which the wrapper installs on its
    [v_high] and [v_low] parameters. *)
Record DigitalGateWrapper : Type := mkWrapper {
  gate : DigitalGate;
  voltage_vals : Q -> bool
}.

Definition with_gate (g : DigitalGate) (w : DigitalGateWrapper) :=
  mkWrapper g (voltage_vals w).

Definition on_gate {A} (m : M DigitalGate A) : M DigitalGateWrapper A :=
  zoom gate with_gate m.

(** One capability method of the wrapper, run on the channel. *)
Definition call (c : capability) : M DigitalGateWrapper unit :=
  emit (EvCap c) ;;
  (fun w =>
     let (src', ok) := capability_call c (source (gate w)) in
     Outcome (with_gate (with_source src' (gate w)) w) []
             (if ok then inr tt else inl HardwareError)).

Definition open := call cap_open.
Definition dac := call cap_dac.
Definition probe := call cap_probe.
Definition ground := call cap_ground.

(** Parameter [out]: [get_cmd] and [set_cmd] are the gate itself,
    [vals=self.gate.vals]. *)
Definition out_get : M DigitalGateWrapper Z := on_gate gate_get.
Definition out_set : pyval -> M DigitalGateWrapper unit :=
  param_set gate_vals (fun v => on_gate (gate_set v)).

(** Parameter [voltage]: the wrapper replaces it by the channel's own
    ([self.parameters['voltage'] = self.parent.voltage]), so it reads and
    writes the source behind the channel's validator and does not go through
    the gate. *)
Definition wrapper_voltage_get : M DigitalGateWrapper Q :=
  on_gate source_voltage_get.
Definition wrapper_voltage_set (v : Q) : M DigitalGateWrapper unit :=
  vals <- gets voltage_vals ;;
  param_set vals (fun v => on_gate (source_voltage_set v)) v.

(** Parameter [lock]: [getattr] / [setattr] on the gate, [vals=Bool()]. *)
Definition wrapper_lock_get : M DigitalGateWrapper bool := on_gate (gets lock).
Definition wrapper_lock_set : bool -> M DigitalGateWrapper unit :=
  param_set (fun _ => true) (fun b => on_gate (lock_set b)).

(** Parameters [v_high] and [v_low]: [setattr] on the gate, that is the
    property setters, behind [vals=self.parent.voltage.vals]. *)
Definition wrapper_v_high_set (val : Q) : M DigitalGateWrapper unit :=
  vals <- gets voltage_vals ;;
  param_set vals (fun v => on_gate (v_high_setter v)) val.
Definition wrapper_v_low_set (val : Q) : M DigitalGateWrapper unit :=
  vals <- gets voltage_vals ;;
  param_set vals (fun v => on_gate (v_low_setter v)) val.

(** [DigitalGateWrapper._set_io_mode] *)
Definition _set_io_mode (val : modeval) : M DigitalGateWrapper unit :=
  wrapper_lock_set false ;;
  (if mode_is val IN then open
   else if mode_is val OUT then dac
   else if mode_is val PROBE_OUT then probe
   else if mode_is val HIGH then
     dac ;; out_set (PyInt 1) ;; wrapper_lock_set true
   else if mode_is val LOW then
     dac ;; out_set (PyInt 0) ;; wrapper_lock_set true
   else if mode_is val GND then ground
   else ret tt) ;;
  on_gate (emit (EvStoreMode val) ;; modify (with_io_mode val)).

(** [vals] of [io_mode], the [Enum] validator over the members of
    [DigitalMode]: membership among the six. *)
Definition all_modes : list DigitalMode := [IN; OUT; PROBE_OUT; HIGH; LOW; GND].
Definition io_mode_vals (val : modeval) : bool := mode_in val all_modes.

(** Parameter [io_mode]. *)
Definition io_mode_get : M DigitalGateWrapper modeval := on_gate (gets io_mode).
Definition io_mode_set : modeval -> M DigitalGateWrapper unit :=
  param_set io_mode_vals _set_io_mode.

(** ** DigitalDevice *)

(** [digital_gates] in registration order, and the two defaults
    [self._v_high] and [self._v_low] of the device. *)
Record DigitalDevice : Type := mkDevice {
  digital_gates : list DigitalGateWrapper;
  device_v_high : Q;
  device_v_low : Q
}.

Definition with_gates (ws : list DigitalGateWrapper) (d : DigitalDevice) :=
  mkDevice ws (device_v_high d) (device_v_low d).
Definition with_device_v_high (v : Q) (d : DigitalDevice) :=
  mkDevice (digital_gates d) v (device_v_low d).
Definition with_device_v_low (v : Q) (d : DigitalDevice) :=
  mkDevice (digital_gates d) (device_v_high d) v.

(** [for x in xs: body(x)], each element mutated in place; a raise leaves
    the remaining elements as they were. *)
Fixpoint for_each {S} (body : M S unit) (xs : list S) : outcome (list S) unit :=
  match xs with
  | [] => Outcome [] [] (inr tt)
  | x :: rest =>
      let o := body x in
      match result o with
      | inl e => Outcome (final o :: rest) (effects o) (inl e)
      | inr _ =>
          let o' := for_each body rest in
          Outcome (final o :: final o') (effects o ++ effects o') (result o')
      end
  end.

Definition on_gates {A} (m : M (list DigitalGateWrapper) A) : M DigitalDevice A :=
  zoom digital_gates with_gates m.

(** [DigitalDevice._update_vhigh] and [DigitalDevice._update_vlow] *)
Definition _update_vhigh (new_val : Q) : M DigitalDevice unit :=
  on_gates (for_each (wrapper_v_high_set new_val)) ;;
  modify (with_device_v_high new_val).
Definition _update_vlow (new_val : Q) : M DigitalDevice unit :=
  on_gates (for_each (wrapper_v_low_set new_val)) ;;
  modify (with_device_v_low new_val).

(** Device parameters [v_high] and [v_low], [vals=Numbers()]. *)
Definition Numbers (q : Q) : bool := true.
Definition device_v_high_get : M DigitalDevice Q := gets device_v_high.
Definition device_v_high_set : Q -> M DigitalDevice unit :=
  param_set Numbers _update_vhigh.
Definition device_v_low_get : M DigitalDevice Q := gets device_v_low.
Definition device_v_low_set : Q -> M DigitalDevice unit :=
  param_set Numbers _update_vlow.

End Channel.

Arguments mkSource {hw} _ _.
Arguments mkGate {hw} _ _ _ _ _ _.
Arguments mkWrapper {hw} _ _.
Arguments mkDevice {hw} _ _ _.

(** ** The dispatch table as the specification words it *)

(** IN -> open(), OUT -> dac(), PROBE_OUT -> probe(), HIGH and LOW -> dac(),
    GND -> ground(). *)
Definition spec_capability (m : DigitalMode) : capability :=
  match m with
  | IN => cap_open
  | OUT => cap_dac
  | PROBE_OUT => cap_probe
  | HIGH => cap_dac
  | LOW => cap_dac
  | GND => cap_ground
  end.

(** HIGH and LOW end locked; the other four end unlocked. *)
Definition spec_locks (m : DigitalMode) : bool :=
  match m with
  | HIGH | LOW => true
  | _ => false
  end.

(** What follows the capability call: HIGH writes logical 1 (the source goes
    to v_high) and locks, LOW writes logical 0 (the source goes to v_low) and
    locks; nothing for the other four. *)
Definition spec_after_capability (m : DigitalMode) (v_high v_low : Q)
    : list event :=
  match m with
  | HIGH => [EvVoltageSet v_high; EvLock true]
  | LOW => [EvVoltageSet v_low; EvLock true]
  | _ => []
  end.

(** ** Concrete channels and gates for the examples *)

(** A channel whose state is the list of outcomes of its next capability
    calls; once the list is used up every call succeeds. *)
Definition scripted_call (c : capability) (s : Source (list bool))
    : Source (list bool) * bool :=
  match relays s with
  | [] => (s, true)
  | ok :: rest => (mkSource (voltage s) rest, ok)
  end.

#[export] Instance scripted_channel : Channel (list bool) := scripted_call.

(** A gate with levels 1.0 and 0.0 and hysteresis 0.2 on a source at [v]. *)
Definition sample_gate (v : Q) (mode : DigitalMode) (locked : bool)
    : DigitalGate (list bool) :=
  mkGate (mkSource v []) 1 0 (1 # 5) (Member mode) locked.

(** A gate with levels 1.8 and 0.0 and hysteresis 0.2 on a source at [v]. *)
Definition device_gate (v : Q) (mode : DigitalMode) (locked : bool)
    : DigitalGate (list bool) :=
  mkGate (mkSource v []) (9 # 5) 0 (1 # 5) (Member mode) locked.

(** A gate whose bands overlap: levels 1.0 and 0.9, hysteresis 0.2. *)
Definition overlapping_gate (v : Q) (mode : DigitalMode) (locked : bool)
    : DigitalGate (list bool) :=
  mkGate (mkSource v []) 1 (9 # 10) (1 # 5) (Member mode) locked.

(** A gate with hysteresis 0. *)
Definition sharp_gate (v : Q) : DigitalGate (list bool) :=
  mkGate (mkSource v []) 1 0 0 (Member OUT) false.

(** A voltage validator in the manner of [Numbers(-5, 5)]. *)
Definition within_5V (q : Q) : bool := Qle_bool (-5) q && Qle_bool q 5.

(** A channel one of whose next calls fails. *)
Definition faulty_wrapper (mode : DigitalMode) (locked : bool)
    : DigitalGateWrapper (list bool) :=
  mkWrapper (mkGate (mkSource 0 [false]) 1 0 (1 # 5) (Member mode) locked)
            within_5V.

Definition sample_wrapper (v : Q) (mode : DigitalMode) (locked : bool)
    : DigitalGateWrapper (list bool) :=
  mkWrapper (device_gate v mode locked) within_5V.

Definition sample_device : DigitalDevice (list bool) :=
  mkDevice [sample_wrapper (9 # 5) OUT false;
            sample_wrapper 0 IN false;
            sample_wrapper 0 LOW true]
           (9 # 5) 0.

(** A voltage validator in the manner of [Numbers(-2, 2)]. *)
Definition within_2V (q : Q) : bool := Qle_bool (-2) q && Qle_bool q 2.

(** A device whose second gate sits on a channel with the narrower range. *)
Definition mixed_device : DigitalDevice (list bool) :=
  mkDevice [sample_wrapper (9 # 5) OUT false;
            mkWrapper (device_gate 0 OUT false) within_2V;
            sample_wrapper 0 LOW true]
           (9 # 5) 0.

(** What a fan-out of a level leaves alone on a gate: the lock, the mode, the
    hysteresis, the channel's relays and its validator, and, on a gate that
    is not in an output mode, the whole source. *)
Definition fan_out_frame {hw} (w w' : DigitalGateWrapper hw) : Prop :=
  lock (gate w') = lock (gate w) /\
  io_mode (gate w') = io_mode (gate w) /\
  v_hist (gate w') = v_hist (gate w) /\
  relays (source (gate w')) = relays (source (gate w)) /\
  voltage_vals w' = voltage_vals w /\
  (mode_in (io_mode (gate w)) OUTPUT_MODES = false ->
   source (gate w') = source (gate w)).

(** * Properties *)

(** ** Comparison of numbers *)

Lemma Qltb_lt (x y : Q) : Qltb x y = true <-> x < y.
Proof.
  unfold Qltb. rewrite negb_true_iff. split; intro H.
  - apply Qnot_le_lt. intro Hle. apply Qle_bool_iff in Hle. congruence.
  - destruct (Qle_bool y x) eqn:E; [|reflexivity].
    apply Qle_bool_iff in E. exfalso. exact (Qlt_not_le _ _ H E).
Qed.

Lemma Qltb_nlt (x y : Q) : Qltb x y = false <-> ~ x < y.
Proof.
  rewrite <- Qltb_lt. destruct (Qltb x y); split; congruence.
Qed.

Lemma Qabs_diag (x : Q) : Qabs (x - x) == 0.
Proof.
  assert (E : x - x == 0) by ring.
  rewrite E. reflexivity.
Qed.

Section GateProperties.

Variable hw : Type.
Implicit Types (g : DigitalGate hw) (val v : Q).

Local Arguments mode_in : simpl never.
Local Arguments reapply : simpl never.
Local Arguments readback : simpl never.
Local Arguments truthy : simpl never.

Lemma get_raw_run g :
  get_raw g = Outcome g [EvVoltageGet] (inr (readback g)).
Proof.
  unfold get_raw, readback, source_voltage_get, bind, emit, gets, ret; simpl.
  destruct (Qltb _ _); [reflexivity|].
  destruct (Qltb _ _); reflexivity.
Qed.

Lemma readback_cases g :
  readback g = 1%Z \/ readback g = 0%Z \/ readback g = (-1)%Z.
Proof.
  unfold readback; simpl.
  destruct (Qltb _ _); [auto|]. destruct (Qltb _ _); auto.
Qed.

(** A write on an unlocked gate. *)
Lemma set_raw_unlocked g value :
  lock g = false ->
  set_raw value g =
    let level := if truthy value then _v_high g else _v_low g in
    Outcome (with_voltage level g) [EvVoltageSet level] (inr tt).
Proof.
  intro Hl. unfold set_raw, bind, gets, source_voltage_set, emit, modify, ret.
  simpl. rewrite Hl. destruct (truthy value); reflexivity.
Qed.

Lemma set_raw_locked g value :
  lock g = true -> set_raw value g = Outcome g [] (inr tt).
Proof.
  intro Hl. unfold set_raw, bind, gets, ret. simpl. rewrite Hl. reflexivity.
Qed.

(** [self(self())] on an unlocked gate. *)
Lemma reapply_unlocked g :
  lock g = false ->
  reapply g =
    let level := if truthy (PyInt (readback g)) then _v_high g else _v_low g in
    Outcome (with_voltage level g) [EvVoltageGet; EvVoltageSet level] (inr tt).
Proof.
  intro Hl. unfold reapply, gate_get, gate_set, param_set, gate_vals, bind.
  rewrite get_raw_run. cbn [result final effects].
  rewrite (@set_raw_unlocked g (PyInt (readback g)) Hl). reflexivity.
Qed.

(** The two setters in an output mode, whatever the lock was. *)
Lemma v_high_setter_output g val :
  mode_in (io_mode g) OUTPUT_MODES = true ->
  v_high_setter val g =
    let g1 := with_v_high val g in
    let level := if truthy (PyInt (readback g1)) then val else _v_low g in
    Outcome (with_voltage level g1)
            [EvStoreVHigh val; EvLock false; EvVoltageGet; EvVoltageSet level;
             EvLock (lock g)]
            (inr tt).
Proof.
  intro Hm. unfold v_high_setter, bind, emit, modify, gets, lock_set, when.
  simpl. rewrite Hm.
  rewrite reapply_unlocked by reflexivity. simpl.
  destruct g as [[vv r] vh vl h m l]; simpl.
  destruct (truthy _); reflexivity.
Qed.

Lemma v_low_setter_output g val :
  mode_in (io_mode g) OUTPUT_MODES = true ->
  v_low_setter val g =
    let g1 := with_v_low val g in
    let level := if truthy (PyInt (readback g1)) then _v_high g else val in
    Outcome (with_voltage level g1)
            [EvStoreVLow val; EvLock false; EvVoltageGet; EvVoltageSet level;
             EvLock (lock g)]
            (inr tt).
Proof.
  intro Hm. unfold v_low_setter, bind, emit, modify, gets, lock_set, when.
  simpl. rewrite Hm.
  rewrite reapply_unlocked by reflexivity. simpl.
  destruct g as [[vv r] vh vl h m l]; simpl.
  destruct (truthy _); reflexivity.
Qed.

(** The two setters outside the output modes. *)
Lemma v_high_setter_input g val :
  mode_in (io_mode g) OUTPUT_MODES = false ->
  v_high_setter val g =
    Outcome (with_v_high val g)
            [EvStoreVHigh val; EvLock false; EvLock (lock g)] (inr tt).
Proof.
  intro Hm. unfold v_high_setter, bind, emit, modify, gets, lock_set, when.
  simpl. rewrite Hm. destruct g; reflexivity.
Qed.

Lemma v_low_setter_input g val :
  mode_in (io_mode g) OUTPUT_MODES = false ->
  v_low_setter val g =
    Outcome (with_v_low val g)
            [EvStoreVLow val; EvLock false; EvLock (lock g)] (inr tt).
Proof.
  intro Hm. unfold v_low_setter, bind, emit, modify, gets, lock_set, when.
  simpl. rewrite Hm. destruct g; reflexivity.
Qed.

Lemma readback_high g :
  within_hysteresis g (_v_high g) -> readback g = 1%Z.
Proof.
  unfold within_hysteresis, readback. intro H.
  apply Qltb_lt in H. cbv zeta. rewrite H. reflexivity.
Qed.

Lemma readback_low g :
  ~ within_hysteresis g (_v_high g) -> within_hysteresis g (_v_low g) ->
  readback g = 0%Z.
Proof.
  unfold within_hysteresis, readback. intros Hh Hl.
  apply Qltb_nlt in Hh. apply Qltb_lt in Hl. cbv zeta.
  rewrite Hh, Hl. reflexivity.
Qed.

Lemma readback_undefined g :
  ~ within_hysteresis g (_v_high g) -> ~ within_hysteresis g (_v_low g) ->
  readback g = (-1)%Z.
Proof.
  unfold within_hysteresis, readback. intros Hh Hl.
  apply Qltb_nlt in Hh. apply Qltb_nlt in Hl. cbv zeta.
  rewrite Hh, Hl. reflexivity.
Qed.

Lemma readback_undefined_inv g :
  readback g = (-1)%Z ->
  ~ within_hysteresis g (_v_high g) /\ ~ within_hysteresis g (_v_low g).
Proof.
  unfold within_hysteresis, readback. cbv zeta.
  destruct (Qltb (Qabs (voltage (source g) - _v_high g)) (v_hist g)) eqn:Eh;
    [discriminate|].
  destruct (Qltb (Qabs (voltage (source g) - _v_low g)) (v_hist g)) eqn:El;
    [discriminate|].
  intros _. split; apply Qltb_nlt; assumption.
Qed.

(** ** DigitalGate: read *)

(** C2.  [get_raw] leaves the gate as it is and returns 1 when the source
    voltage is within hysteresis of v_high, otherwise 0 when it is within
    hysteresis of v_low, otherwise -1; the high test comes first.  With
    v_high = 1.0, v_low = 0.0 and hysteresis 0.2, a source at 0.95 reads 1 and
    a source at 0.5 reads -1. *)
Theorem get_raw_tristate g :
  final (get_raw g) = g /\
  (within_hysteresis g (_v_high g) -> result (get_raw g) = inr 1%Z) /\
  (~ within_hysteresis g (_v_high g) -> within_hysteresis g (_v_low g) ->
   result (get_raw g) = inr 0%Z) /\
  (~ within_hysteresis g (_v_high g) -> ~ within_hysteresis g (_v_low g) ->
   result (get_raw g) = inr (-1)%Z) /\
  (forall (r : hw) mode locked,
     result (get_raw (mkGate (mkSource (19 # 20) r) 1 0 (1 # 5) mode locked))
       = inr 1%Z /\
     result (get_raw (mkGate (mkSource (1 # 2) r) 1 0 (1 # 5) mode locked))
       = inr (-1)%Z).
Proof.
  rewrite get_raw_run. cbn [final result].
  split; [reflexivity|].
  split; [intro H; now rewrite readback_high|].
  split; [intros Hh Hl; now rewrite readback_low|].
  split; [intros Hh Hl; now rewrite readback_undefined|].
  intros r mode locked. split; reflexivity.
Qed.

(** ** DigitalGate: write *)



(** ** DigitalGate: the level setters *)

(** C5.  A gate at logical 0 (levels 1.8 and 0.0, hysteresis 0.2, source at
    0.0, mode OUT) whose v_low is set to 0.5 ends with its source at 1.8 and
    reads 1: the new level is stored before the read-back, the source is then
    within hysteresis of neither level, and the -1 read back is written as
    true.  Likewise a gate at logical 1 with overlapping bands (levels 1.0
    and 0.9, source at 1.0) whose v_high is set to 2.0 ends with its source
    at 0.9 and reads 0.  The lock is as it was in both. *)
Theorem setter_changes_logical_value :
  (let g := device_gate 0 OUT false in
   let g' := final (v_low_setter (1 # 2) g) in
   result (get_raw g) = inr 0%Z /\
   _v_low g' = 1 # 2 /\
   voltage (source g') = 9 # 5 /\
   result (get_raw g') = inr 1%Z /\
   lock g' = lock g) /\
  (let g := overlapping_gate 1 OUT true in
   let g' := final (v_high_setter 2 g) in
   result (get_raw g) = inr 1%Z /\
   _v_high g' = 2 /\
   voltage (source g') = 9 # 10 /\
   result (get_raw g') = inr 0%Z /\
   lock g' = lock g).
Proof.
  cbv zeta. repeat split; vm_compute; reflexivity.
Qed.

(** What does hold of the v_high setter in an output mode: when the source
    voltage is not within hysteresis of v_low (so on a gate that reads 1 and
    whose bands do not overlap), the read-back against the new level is 1 or
    -1, and the source is driven to the new v_high, locked or not; the lock
    ends as it was. *)
Lemma v_high_setter_redrives_high g val :
  mode_in (io_mode g) OUTPUT_MODES = true ->
  ~ within_hysteresis g (_v_low g) ->
  let g' := final (v_high_setter val g) in
  voltage (source g') = val /\ _v_high g' = val /\ lock g' = lock g.
Proof.
  intros Hm Hnl. cbv zeta.
  rewrite (@v_high_setter_output g val Hm). cbv zeta. cbn [final].
  apply Qltb_nlt in Hnl.
  unfold within_hysteresis, readback, with_voltage, with_source, with_v_high.
  cbn [source voltage _v_high _v_low v_hist lock io_mode].
  split; [|split; reflexivity].
  destruct (Qltb (Qabs (voltage (source g) - val)) (v_hist g));
    [reflexivity|].
  rewrite Hnl. reflexivity.
Qed.

(** C9.  Outside the output modes each setter stores the level and nothing
    else changes: the source is neither read nor written, and the lock,
    cleared and then restored, ends as it was. *)
Theorem setters_outside_output_modes g val :
  mode_in (io_mode g) OUTPUT_MODES = false ->
  (let o := v_high_setter val g in
   result o = inr tt /\
   final o = with_v_high val g /\
   effects o = [EvStoreVHigh val; EvLock false; EvLock (lock g)] /\
   source (final o) = source g /\ lock (final o) = lock g) /\
  (let o := v_low_setter val g in
   result o = inr tt /\
   final o = with_v_low val g /\
   effects o = [EvStoreVLow val; EvLock false; EvLock (lock g)] /\
   source (final o) = source g /\ lock (final o) = lock g).
Proof.
  intro Hm. cbv zeta.
  rewrite (@v_high_setter_input g val Hm), (@v_low_setter_input g val Hm).
  cbn [final result effects]. repeat split; reflexivity.
Qed.


End GateProperties.

Section WrapperProperties.

Context {hw : Type} {channel : Channel hw}.
Implicit Types (w : DigitalGateWrapper hw) (d : DigitalDevice hw) (X : Q).

Lemma wrapper_lock_set_run b w :
  wrapper_lock_set b w =
    Outcome (with_gate (with_lock b (gate w)) w) [EvLock b] (inr tt).
Proof. reflexivity. Qed.

Lemma call_run c w :
  call c w =
    let r := capability_call c (source (gate w)) in
    Outcome (with_gate (with_source (fst r) (gate w)) w) [EvCap c]
            (if snd r then inr tt else inl HardwareError).
Proof.
  unfold call, bind, emit. cbn [final result effects].
  destruct (capability_call c (source (gate w))) as [src' ok].
  destruct ok; reflexivity.
Qed.

(** The transition handler on a member of the enumeration: the lock is
    cleared, the capability of the mode is called, and the rest runs only if
    the call returns. *)
Lemma _set_io_mode_member m w :
  _set_io_mode (Member m) w =
    let g := gate w in
    let r := capability_call (spec_capability m) (source g) in
    let g1 := with_source (fst r) (with_lock false g) in
    if snd r then
      let g2 :=
        match m with
        | HIGH => with_lock true (with_voltage (_v_high g) g1)
        | LOW => with_lock true (with_voltage (_v_low g) g1)
        | _ => g1
        end in
      Outcome (with_gate (with_io_mode (Member m) g2) w)
              ([EvLock false; EvCap (spec_capability m)]
                 ++ spec_after_capability m (_v_high g) (_v_low g)
                 ++ [EvStoreMode (Member m)])
              (inr tt)
    else
      Outcome (with_gate g1 w) [EvLock false; EvCap (spec_capability m)]
              (inl HardwareError).
Proof.
  unfold _set_io_mode, open, dac, probe, ground.
  destruct w as [[[vv r] vh vl h md l] vals].
  destruct m; cbn [mode_is DigitalMode_eqb spec_capability];
    unfold bind at 1; rewrite wrapper_lock_set_run; cbn [final result effects];
    unfold bind; rewrite call_run; cbv zeta;
    cbn [gate with_gate with_lock with_source source _v_high _v_low v_hist
         io_mode lock voltage_vals final result effects];
    destruct (capability_call _ _) as [[vv' r'] ok];
    destruct ok; reflexivity.
Qed.

(** Without the validator in front of it the handler has no guard of its
    own: a value equal to no member clears the lock, calls no capability and
    is stored. *)
Lemma _set_io_mode_foreign repr w :
  _set_io_mode (Foreign repr) w =
    Outcome (with_gate (with_io_mode (Foreign repr) (with_lock false (gate w))) w)
            [EvLock false; EvStoreMode (Foreign repr)] (inr tt).
Proof. destruct w as [[[vv r] vh vl h md l] vals]. reflexivity. Qed.

Lemma io_mode_vals_member m : io_mode_vals (Member m) = true.
Proof. destruct m; reflexivity. Qed.

Lemma io_mode_vals_outside val :
  (forall m, val <> Member m) -> io_mode_vals val = false.
Proof.
  destruct val as [m|repr]; [|reflexivity].
  intro H. exfalso. exact (H m eq_refl).
Qed.

(** ** DigitalGateWrapper: the io_mode transition *)


(** C6.  A value that is none of the six members is rejected by the io_mode
    parameter with [InvalidArgument]: nothing is done (the lock is not
    cleared, no capability is called) and the wrapper, with the gate's
    io_mode, is as before. *)
Theorem io_mode_set_invalid (val : modeval) w :
  (forall m, val <> Member m) ->
  let o := io_mode_set val w in
  result o = inl InvalidArgument /\
  effects o = [] /\
  final o = w /\
  io_mode (gate (final o)) = io_mode (gate w).
Proof.
  intro H. cbv zeta. unfold io_mode_set, param_set.
  rewrite (io_mode_vals_outside H). cbn. repeat split; reflexivity.
Qed.


(** ** DigitalDevice: the fan-out of the levels *)

Lemma for_each_accepted (body : M (DigitalGateWrapper hw) unit) ws :
  Forall (fun w => result (body w) = inr tt) ws ->
  for_each body ws =
    Outcome (map (fun w => final (body w)) ws)
            (flat_map (fun w => effects (body w)) ws)
            (inr tt).
Proof.
  induction 1 as [|w ws Hw _ IH]; [reflexivity|].
  cbn [for_each map flat_map]. rewrite Hw, IH. reflexivity.
Qed.

(** The loop stops at the first element whose body raises: the elements
    before it have been updated, in order, and those after it are as they
    were. *)
Lemma for_each_rejected (body : M (DigitalGateWrapper hw) unit) pre w post e :
  Forall (fun w => result (body w) = inr tt) pre ->
  result (body w) = inl e ->
  for_each body (pre ++ w :: post) =
    Outcome (map (fun w => final (body w)) pre ++ final (body w) :: post)
            (flat_map (fun w => effects (body w)) pre ++ effects (body w))
            (inl e).
Proof.
  intros Hpre Hw. induction Hpre as [|p pre Hp _ IH]; cbn.
  - rewrite Hw. reflexivity.
  - rewrite Hp, IH. cbn. rewrite app_assoc. reflexivity.
Qed.

Lemma wrapper_v_high_set_accepted X w :
  voltage_vals w X = true ->
  wrapper_v_high_set X w =
    let o := v_high_setter X (gate w) in
    Outcome (with_gate (final o) w) (effects o) (result o).
Proof.
  intro H. unfold wrapper_v_high_set, bind, gets, param_set.
  cbn [final result effects]. rewrite H. reflexivity.
Qed.

Lemma wrapper_v_low_set_accepted X w :
  voltage_vals w X = true ->
  wrapper_v_low_set X w =
    let o := v_low_setter X (gate w) in
    Outcome (with_gate (final o) w) (effects o) (result o).
Proof.
  intro H. unfold wrapper_v_low_set, bind, gets, param_set.
  cbn [final result effects]. rewrite H. reflexivity.
Qed.

Lemma wrapper_v_high_set_rejected X w :
  voltage_vals w X = false ->
  wrapper_v_high_set X w = Outcome w [] (inl InvalidArgument).
Proof.
  intro H. unfold wrapper_v_high_set, bind, gets, param_set.
  cbn [final result effects]. rewrite H. reflexivity.
Qed.

Lemma v_high_setter_total (g : DigitalGate hw) X :
  result (v_high_setter X g) = inr tt /\ _v_high (final (v_high_setter X g)) = X.
Proof.
  destruct (mode_in (io_mode g) OUTPUT_MODES) eqn:Hm.
  - rewrite (@v_high_setter_output hw g X Hm). split; reflexivity.
  - rewrite (@v_high_setter_input hw g X Hm). split; reflexivity.
Qed.

Lemma v_low_setter_total (g : DigitalGate hw) X :
  result (v_low_setter X g) = inr tt /\ _v_low (final (v_low_setter X g)) = X.
Proof.
  destruct (mode_in (io_mode g) OUTPUT_MODES) eqn:Hm.
  - rewrite (@v_low_setter_output hw g X Hm). split; reflexivity.
  - rewrite (@v_low_setter_input hw g X Hm). split; reflexivity.
Qed.


(** When a gate's validator rejects [X], the fan-out raises there: the gates
    registered before it have their new v_high, the gates after it and the
    device default keep the old one. *)
Lemma device_v_high_set_rejected d X pre w post :
  digital_gates d = pre ++ w :: post ->
  Forall (fun w => voltage_vals w X = true) pre ->
  voltage_vals w X = false ->
  let o := device_v_high_set X d in
  result o = inl InvalidArgument /\
  digital_gates (final o) =
    map (fun w => with_gate (final (v_high_setter X (gate w))) w) pre
      ++ w :: post /\
  device_v_high (final o) = device_v_high d.
Proof.
  intros Hd Hpre Hw. cbv zeta.
  unfold device_v_high_set, param_set, Numbers, _update_vhigh, on_gates,
    zoom, bind.
  cbn [final result effects]. rewrite Hd.
  rewrite (@for_each_rejected (wrapper_v_high_set X) pre w post InvalidArgument).
  - cbn [final result effects digital_gates device_v_high with_gates].
    rewrite (wrapper_v_high_set_rejected X _ Hw). cbn [final].
    repeat split. f_equal.
    apply map_ext_in. intros p Hp. rewrite Forall_forall in Hpre.
    now rewrite (wrapper_v_high_set_accepted X _ (Hpre p Hp)).
  - eapply Forall_impl; [|exact Hpre]. intros p Hp.
    rewrite (wrapper_v_high_set_accepted X _ Hp). apply v_high_setter_total.
  - now rewrite (wrapper_v_high_set_rejected X _ Hw).
Qed.

End WrapperProperties.

(** * The properties on concrete gates *)

Lemma get_raw_tristate_witness :
  let g := sample_gate (1 # 10) OUT false in
  ~ within_hysteresis g (_v_high g) /\ within_hysteresis g (_v_low g) /\
  result (get_raw g) = inr 0%Z.
Proof.
  cbv zeta.
  assert (Hh : ~ within_hysteresis (sample_gate (1 # 10) OUT false) 1)
    by (intro H; vm_compute in H; discriminate).
  assert (Hl : within_hysteresis (sample_gate (1 # 10) OUT false) 0)
    by reflexivity.
  split; [exact Hh|]. split; [exact Hl|].
  exact (proj1 (proj2 (proj2 (get_raw_tristate
                                (sample_gate (1 # 10) OUT false)))) Hh Hl).
Defined.




Lemma setters_outside_output_modes_witness :
  let g := sample_gate (1 # 2) GND true in
  mode_in (io_mode g) OUTPUT_MODES = false /\
  final (v_high_setter 2 g) = with_v_high 2 g /\
  final (v_low_setter (1 # 4) g) = with_v_low (1 # 4) g.
Proof.
  cbv zeta. split; [reflexivity|].
  destruct (@setters_outside_output_modes _ (sample_gate (1 # 2) GND true) 2
              eq_refl) as [(_ & Hh & _) _].
  destruct (@setters_outside_output_modes _ (sample_gate (1 # 2) GND true)
              (1 # 4) eq_refl) as [_ (_ & Hl & _)].
  split; [exact Hh | exact Hl].
Defined.




Lemma io_mode_set_invalid_witness :
  let w := sample_wrapper 0 OUT true in
  (forall m, Foreign "7" <> Member m) /\
  result (io_mode_set (Foreign "7") w) = inl InvalidArgument /\
  final (io_mode_set (Foreign "7") w) = w.
Proof.
  cbv zeta.
  assert (H : forall m, Foreign "7" <> Member m) by (intros m; discriminate).
  split; [exact H|].
  destruct (@io_mode_set_invalid _ scripted_channel (Foreign "7")
              (sample_wrapper 0 OUT true) H) as (Hr & _ & Hf & _).
  split; [exact Hr | exact Hf].
Defined.




(** * Further properties of the gate *)

Section GateBehaviour.

Variable hw : Type.
Implicit Types (g : DigitalGate hw) (val v : Q).

Local Arguments mode_in : simpl never.
Local Arguments readback : simpl never.
Local Arguments truthy : simpl never.

(** X1.  Every member is an output mode or an input mode and never both; an object
    that is no member is neither. *)
Theorem modes_partition :
  (forall m : DigitalMode,
     mode_in (Member m) OUTPUT_MODES = negb (mode_in (Member m) INPUT_MODES)) /\
  (forall repr,
     mode_in (Foreign repr) OUTPUT_MODES = false /\
     mode_in (Foreign repr) INPUT_MODES = false).
Proof.
  split.
  - intros []; reflexivity.
  - intro repr. split; reflexivity.
Qed.

Lemma within_hysteresis_positive g level :
  within_hysteresis g level -> 0 < v_hist g.
Proof.
  unfold within_hysteresis. intro H.
  pose proof (Qabs_nonneg (voltage (source g) - level)). lra.
Qed.

Lemma readback_of_voltage g v :
  readback (with_voltage v g) =
    if Qltb (Qabs (v - _v_high g)) (v_hist g) then 1%Z
    else if Qltb (Qabs (v - _v_low g)) (v_hist g) then 0%Z
    else (-1)%Z.
Proof. reflexivity. Qed.



(** X4.  When the two levels are at least two hystereses apart, no voltage is
    within hysteresis of both, so the order of the two tests in the read does
    not matter: the read returns 0 exactly when the voltage is within
    hysteresis of v_low, and 1 exactly when it is within hysteresis of
    v_high. *)
Theorem separated_levels g :
  2 * v_hist g <= Qabs (_v_high g - _v_low g) ->
  ~ (within_hysteresis g (_v_high g) /\ within_hysteresis g (_v_low g)) /\
  (result (get_raw g) = inr 1%Z <-> within_hysteresis g (_v_high g)) /\
  (result (get_raw g) = inr 0%Z <-> within_hysteresis g (_v_low g)).
Proof.
  intro Hsep.
  assert (Hex : ~ (within_hysteresis g (_v_high g) /\
                   within_hysteresis g (_v_low g))).
  { unfold within_hysteresis. intros [Hh Hl].
    apply Qabs_Qlt_condition in Hh, Hl.
    assert (Hd : Qabs (_v_high g - _v_low g) < 2 * v_hist g).
    { apply Qabs_Qlt_condition. lra. }
    lra. }
  split; [exact Hex|].
  rewrite get_raw_run. cbn [result]. unfold readback, within_hysteresis in *.
  cbv zeta.
  destruct (Qltb (Qabs (voltage (source g) - _v_high g)) (v_hist g)) eqn:Eh;
    [apply Qltb_lt in Eh | apply Qltb_nlt in Eh];
  (destruct (Qltb (Qabs (voltage (source g) - _v_low g)) (v_hist g)) eqn:El;
    [apply Qltb_lt in El | apply Qltb_nlt in El]);
  (split; split; intro H; try discriminate H; try reflexivity; tauto).
Qed.



End GateBehaviour.

(** * Further properties of the wrapper and of the device *)

Section WrapperBehaviour.

Context {hw : Type} {channel : Channel hw}.
Implicit Types (w : DigitalGateWrapper hw) (d : DigitalDevice hw) (X : Q).

Local Arguments truthy : simpl never.

Lemma out_set_run value w :
  out_set value w =
    let o := set_raw value (gate w) in
    Outcome (with_gate (final o) w) (effects o) (result o).
Proof. reflexivity. Qed.

Lemma with_gate_same w : with_gate (gate w) w = w.
Proof. destruct w; reflexivity. Qed.

Lemma out_set_locked value w :
  lock (gate w) = true -> out_set value w = Outcome w [] (inr tt).
Proof.
  intro Hl. rewrite out_set_run, (@set_raw_locked _ (gate w) value Hl).
  cbv zeta. cbn [final effects result]. now rewrite with_gate_same.
Qed.

Lemma out_set_unlocked value w :
  lock (gate w) = false ->
  out_set value w =
    let level := if truthy value then _v_high (gate w) else _v_low (gate w) in
    Outcome (with_gate (with_voltage level (gate w)) w) [EvVoltageSet level]
            (inr tt).
Proof.
  intro Hl. rewrite out_set_run, (@set_raw_unlocked _ (gate w) value Hl).
  reflexivity.
Qed.

(** The wrapper a transition that returned has left. *)
Lemma io_mode_set_returned m w :
  result (io_mode_set (Member m) w) = inr tt ->
  snd (capability_call (spec_capability m) (source (gate w))) = true /\
  final (io_mode_set (Member m) w) =
    let g := gate w in
    let src' := fst (capability_call (spec_capability m) (source g)) in
    let g1 := with_source src' (with_lock false g) in
    with_gate
      (with_io_mode (Member m)
         match m with
         | HIGH => with_lock true (with_voltage (_v_high g) g1)
         | LOW => with_lock true (with_voltage (_v_low g) g1)
         | _ => g1
         end) w.
Proof.
  unfold io_mode_set, param_set.
  rewrite io_mode_vals_member, _set_io_mode_member. cbv zeta.
  destruct (snd (capability_call (spec_capability m) (source (gate w)))).
  - intros _. split; reflexivity.
  - cbn [result]. discriminate.
Qed.




(** X10.  The [voltage] parameter of the wrapper is not guarded by the lock: on a
    locked gate a write through [out] does nothing, while an accepted write
    through [voltage] sets the source, changes nothing else, and is what
    [voltage] reads afterwards. *)
Theorem voltage_bypasses_lock w v value :
  voltage_vals w v = true ->
  lock (gate w) = true ->
  out_set value w = Outcome w [] (inr tt) /\
  wrapper_voltage_set v w =
    Outcome (with_gate (with_voltage v (gate w)) w) [EvVoltageSet v] (inr tt) /\
  result (wrapper_voltage_get (final (wrapper_voltage_set v w))) = inr v.
Proof.
  intros Hv Hl. split; [now apply out_set_locked|].
  unfold wrapper_voltage_set, wrapper_voltage_get, bind, gets, param_set.
  cbn [final result effects]. rewrite Hv. split; reflexivity.
Qed.

(** X11.  A gate forced HIGH follows a change of v_high made through the wrapper:
    when the old v_high is not within hysteresis of v_low, the source goes to
    the new v_high and the gate stays locked in mode HIGH. *)
Theorem forced_high_follows_v_high w X :
  result (io_mode_set (Member HIGH) w) = inr tt ->
  voltage_vals w X = true ->
  ~ Qabs (_v_high (gate w) - _v_low (gate w)) < v_hist (gate w) ->
  let w1 := final (io_mode_set (Member HIGH) w) in
  let w2 := final (wrapper_v_high_set X w1) in
  voltage (source (gate w2)) = X /\ _v_high (gate w2) = X /\
  lock (gate w2) = true /\ io_mode (gate w2) = Member HIGH.
Proof.
  intros Hr Hv Hfar. cbv zeta.
  destruct (io_mode_set_returned _ _ Hr) as [_ Hf]. rewrite Hf. clear Hf Hr.
  cbv zeta.
  rewrite wrapper_v_high_set_accepted by exact Hv. cbv zeta. cbn [final gate with_gate].
  rewrite v_high_setter_output by reflexivity. cbv zeta. cbn [final].
  apply Qltb_nlt in Hfar.
  unfold readback, with_voltage, with_source, with_v_high, with_lock,
    with_io_mode.
  cbn [source voltage _v_high _v_low v_hist lock io_mode].
  rewrite Hfar.
  destruct (Qltb (Qabs (_v_high (gate w) - X)) (v_hist (gate w)));
    repeat split; reflexivity.
Qed.


(** ** The fan-out and what it leaves alone *)

Lemma for_each_Forall2 (R : DigitalGateWrapper hw -> DigitalGateWrapper hw -> Prop)
    (body : M (DigitalGateWrapper hw) unit) ws :
  (forall w, R w w) ->
  (forall w, R w (final (body w))) ->
  Forall2 R ws (final (for_each body ws)).
Proof.
  intros Hrefl Hbody. induction ws as [|w ws IH]; cbn [for_each].
  - constructor.
  - destruct (result (body w)); cbn [final].
    + constructor; [apply Hbody|].
      clear IH. induction ws; constructor; auto.
    + constructor; [apply Hbody | exact IH].
Qed.

Lemma fan_out_frame_refl w : fan_out_frame w w.
Proof. unfold fan_out_frame. repeat split; reflexivity. Qed.

Lemma wrapper_v_low_set_rejected X w :
  voltage_vals w X = false ->
  wrapper_v_low_set X w = Outcome w [] (inl InvalidArgument).
Proof.
  intro H. unfold wrapper_v_low_set, bind, gets, param_set.
  cbn [final result effects]. rewrite H. reflexivity.
Qed.

Lemma wrapper_v_high_set_frame X w :
  fan_out_frame w (final (wrapper_v_high_set X w)) /\
  _v_low (gate (final (wrapper_v_high_set X w))) = _v_low (gate w).
Proof.
  destruct (voltage_vals w X) eqn:Hv.
  - rewrite (wrapper_v_high_set_accepted X _ Hv). cbv zeta. cbn [final].
    destruct (mode_in (io_mode (gate w)) OUTPUT_MODES) eqn:Hm.
    + rewrite (@v_high_setter_output _ (gate w) X Hm). cbv zeta. cbn [final].
      unfold fan_out_frame. rewrite Hm.
      repeat split; try reflexivity. discriminate.
    + rewrite (@v_high_setter_input _ (gate w) X Hm). cbn [final].
      unfold fan_out_frame. repeat split; reflexivity.
  - rewrite (wrapper_v_high_set_rejected X _ Hv). cbn [final].
    split; [apply fan_out_frame_refl | reflexivity].
Qed.

Lemma wrapper_v_low_set_frame X w :
  fan_out_frame w (final (wrapper_v_low_set X w)) /\
  _v_high (gate (final (wrapper_v_low_set X w))) = _v_high (gate w).
Proof.
  destruct (voltage_vals w X) eqn:Hv.
  - rewrite (wrapper_v_low_set_accepted X _ Hv). cbv zeta. cbn [final].
    destruct (mode_in (io_mode (gate w)) OUTPUT_MODES) eqn:Hm.
    + rewrite (@v_low_setter_output _ (gate w) X Hm). cbv zeta. cbn [final].
      unfold fan_out_frame. rewrite Hm.
      repeat split; try reflexivity. discriminate.
    + rewrite (@v_low_setter_input _ (gate w) X Hm). cbn [final].
      unfold fan_out_frame. repeat split; reflexivity.
  - rewrite (wrapper_v_low_set_rejected X _ Hv). cbn [final].
    split; [apply fan_out_frame_refl | reflexivity].
Qed.



(** X15.  The transition handler called directly, not through the io_mode
    parameter, with a value that is no member: no branch is taken, so it
    returns after clearing the lock and storing the value, with no capability
    called and the source untouched; the gate then counts as being in no
    output mode, and a level setter no longer re-drives its source. *)
Theorem handler_unguarded repr w X :
  let o := _set_io_mode (Foreign repr) w in
  let g' := gate (final o) in
  result o = inr tt /\
  effects o = [EvLock false; EvStoreMode (Foreign repr)] /\
  io_mode g' = Foreign repr /\ lock g' = false /\
  source g' = source (gate w) /\
  source (final (v_high_setter X g')) = source (gate w) /\
  source (final (v_low_setter X g')) = source (gate w).
Proof.
  cbv zeta. rewrite _set_io_mode_foreign. cbn [final result effects].
  repeat split; reflexivity.
Qed.

End WrapperBehaviour.

(** * The further properties on concrete gates *)



Lemma separated_levels_witness :
  let g := sample_gate (1 # 10) OUT false in
  2 * v_hist g <= Qabs (_v_high g - _v_low g) /\
  ~ (within_hysteresis g (_v_high g) /\ within_hysteresis g (_v_low g)).
Proof.
  cbv zeta.
  assert (H : 2 * v_hist (sample_gate (1 # 10) OUT false)
              <= Qabs (_v_high (sample_gate (1 # 10) OUT false)
                       - _v_low (sample_gate (1 # 10) OUT false)))
    by (vm_compute; discriminate).
  split; [exact H|].
  exact (proj1 (@separated_levels _ (sample_gate (1 # 10) OUT false) H)).
Defined.





Lemma voltage_bypasses_lock_witness :
  let w := sample_wrapper 0 LOW true in
  voltage_vals w (1 # 2) = true /\ lock (gate w) = true /\
  result (wrapper_voltage_get (final (wrapper_voltage_set (1 # 2) w)))
    = inr (1 # 2).
Proof.
  cbv zeta. split; [reflexivity|]. split; [reflexivity|].
  exact (proj2 (proj2 (@voltage_bypasses_lock _ (sample_wrapper 0 LOW true)
                         (1 # 2) (PyBool true) eq_refl eq_refl))).
Defined.

Lemma forced_high_follows_v_high_witness :
  let w := sample_wrapper 0 OUT false in
  let w2 := final (wrapper_v_high_set 1
                     (final (io_mode_set (Member HIGH) w))) in
  result (io_mode_set (Member HIGH) w) = inr tt /\
  voltage_vals w 1 = true /\
  ~ Qabs (_v_high (gate w) - _v_low (gate w)) < v_hist (gate w) /\
  voltage (source (gate w2)) = 1 /\ lock (gate w2) = true.
Proof.
  cbv zeta. split; [reflexivity|]. split; [reflexivity|].
  assert (H : ~ Qabs (_v_high (gate (sample_wrapper 0 OUT false))
                      - _v_low (gate (sample_wrapper 0 OUT false)))
                < v_hist (gate (sample_wrapper 0 OUT false)))
    by (intro H; vm_compute in H; discriminate).
  split; [exact H|].
  destruct (@forced_high_follows_v_high _ scripted_channel
              (sample_wrapper 0 OUT false) 1 eq_refl eq_refl H)
    as (Hv & _ & Hl & _).
  split; [exact Hv | exact Hl].
Defined.


